(** * The compilation orchestrator of [optimizing_compiler.cc]

    A shallow embedding of [OptimizingCompiler::Compile] and of the helpers
    it is built from ([IsInstructionSetSupported], [CanOptimize],
    [RunOptimizations]), followed by the properties of the path decision,
    of the statistics counters and of the assembled [CompiledMethod].

    The graph builder, the passes, the register allocator and the code
    generators live in other files of the runtime.  They are taken as an
    interface ([Collaborators]); [Compile] is written over the graph and
    the code generator it shares with them, and every call it makes to
    them is journalled. *)

From Stdlib Require Import ZArith List String Bool Lia.
From Stdlib Require Import Strings.Byte.
Import ListNotations.
Open Scope Z_scope.

(** ** Plain data *)

(** [enum InstructionSet] (instruction_set.h). *)
Inductive InstructionSet : Type :=
| kNone | kArm | kArm64 | kThumb2 | kX86 | kX86_64 | kMips | kMips64.

Definition InstructionSet_eqb (a b : InstructionSet) : bool :=
  match a, b with
  | kNone, kNone | kArm, kArm | kArm64, kArm64 | kThumb2, kThumb2
  | kX86, kX86 | kX86_64, kX86_64 | kMips, kMips | kMips64, kMips64 => true
  | _, _ => false
  end.

(** [CompilerOptions::CompilerFilter] (driver/compiler_options.h). *)
Inductive CompilerFilter : Type :=
| kVerifyNone | kInterpretOnly | kSpace | kBalanced | kSpeed | kEverything
| kTime.

Definition CompilerFilter_is_kTime (f : CompilerFilter) : bool :=
  match f with kTime => true | _ => false end.

(** What [Compile] reads from the driver: [GetInstructionSet()],
    [GetCompilerOptions().GetCompilerFilter()] and
    [GetCompilerOptions().GetIncludeDebugSymbols()]. *)
Record CompilerDriver : Type := mkDriver {
  GetInstructionSet : InstructionSet;
  GetCompilerFilter : CompilerFilter;
  GetIncludeDebugSymbols : bool
}.

(** [DexFile::CodeItem]: the two fields this file and its eligibility
    check look at. *)
Record CodeItem : Type := mkCodeItem {
  tries_size_ : Z;
  insns_size_in_code_units_ : Z
}.

Definition bytes : Type := list byte.

(** [SrcMap]: pairs (native offset, source offset). *)
Definition SrcMap : Type := list (Z * Z).

(** The two constructors of [CompiledMethod] that [Compile] calls: the one
    taking a stack map (optimized code) and the one taking a source map,
    a vmap table, a GC map and CFI information (baseline code). *)
Inductive CompiledMethod : Type :=
| CompiledMethodOptimized
    (instruction_set : InstructionSet) (quick_code : bytes)
    (frame_size_in_bytes core_spill_mask fp_spill_mask : Z)
    (mapping_table stack_map : bytes)
| CompiledMethodBaseline
    (instruction_set : InstructionSet) (quick_code : bytes)
    (frame_size_in_bytes core_spill_mask fp_spill_mask : Z)
    (src_mapping_table : SrcMap)
    (mapping_table vmap_table native_gc_map : bytes)
    (cfi_info : option bytes).

Definition GetFpSpillMask (m : CompiledMethod) : Z :=
  match m with
  | CompiledMethodOptimized _ _ _ _ fp _ _ => fp
  | CompiledMethodBaseline _ _ _ _ fp _ _ _ _ _ => fp
  end.

Definition GetQuickCode (m : CompiledMethod) : bytes :=
  match m with
  | CompiledMethodOptimized _ code _ _ _ _ _ => code
  | CompiledMethodBaseline _ code _ _ _ _ _ _ _ _ => code
  end.

Definition GetMappingTable (m : CompiledMethod) : bytes :=
  match m with
  | CompiledMethodOptimized _ _ _ _ _ mt _ => mt
  | CompiledMethodBaseline _ _ _ _ _ _ mt _ _ _ => mt
  end.

Inductive Path : Type := OptimizedPath | BaselinePath.

Definition schema (m : CompiledMethod) : Path :=
  match m with
  | CompiledMethodOptimized _ _ _ _ _ _ _ => OptimizedPath
  | CompiledMethodBaseline _ _ _ _ _ _ _ _ _ _ => BaselinePath
  end.

(** ** Statistics counters

    [AtomicInteger] is a 32-bit signed atomic; [++] on it wraps. *)
Definition wrap32 (z : Z) : Z := (z + 2 ^ 31) mod 2 ^ 32 - 2 ^ 31.

Definition atomic_incr (x : Z) : Z := wrap32 (x + 1).

(** The members of [class OptimizingCompiler] (the driver is the one held
    by the [Compiler] base class). *)
Record OptimizingCompiler : Type := mkCompiler {
  GetCompilerDriver : CompilerDriver;
  run_optimizations_ : bool;
  total_compiled_methods_ : Z;
  unoptimized_compiled_methods_ : Z;
  optimized_compiled_methods_ : Z
}.

(** The constructor of [OptimizingCompiler]. *)
Definition CreateOptimizingCompiler (driver : CompilerDriver)
  : OptimizingCompiler :=
  {| GetCompilerDriver := driver;
     run_optimizations_ :=
       negb (CompilerFilter_is_kTime (GetCompilerFilter driver));
     total_compiled_methods_ := 0;
     unoptimized_compiled_methods_ := 0;
     optimized_compiled_methods_ := 0 |}.

Definition incr_total (c : OptimizingCompiler) : OptimizingCompiler :=
  {| GetCompilerDriver := GetCompilerDriver c;
     run_optimizations_ := run_optimizations_ c;
     total_compiled_methods_ := atomic_incr (total_compiled_methods_ c);
     unoptimized_compiled_methods_ := unoptimized_compiled_methods_ c;
     optimized_compiled_methods_ := optimized_compiled_methods_ c |}.

Definition incr_unoptimized (c : OptimizingCompiler) : OptimizingCompiler :=
  {| GetCompilerDriver := GetCompilerDriver c;
     run_optimizations_ := run_optimizations_ c;
     total_compiled_methods_ := total_compiled_methods_ c;
     unoptimized_compiled_methods_ :=
       atomic_incr (unoptimized_compiled_methods_ c);
     optimized_compiled_methods_ := optimized_compiled_methods_ c |}.

Definition incr_optimized (c : OptimizingCompiler) : OptimizingCompiler :=
  {| GetCompilerDriver := GetCompilerDriver c;
     run_optimizations_ := run_optimizations_ c;
     total_compiled_methods_ := total_compiled_methods_ c;
     unoptimized_compiled_methods_ := unoptimized_compiled_methods_ c;
     optimized_compiled_methods_ :=
       atomic_incr (optimized_compiled_methods_ c) |}.

(** ** Passes and the journal of calls *)

(** The pass classes instantiated in this file. *)
Inductive Pass : Type :=
| HDeadCodeElimination
| HConstantFolding
| SsaRedundantPhiElimination
| SsaDeadPhiElimination
| InstructionSimplifier
| GlobalValueNumberer
| PrepareForRegisterAllocation.

(** The argument of [visualizer.DumpGraph]. *)
Inductive DumpLabel : Type :=
| Label (name : string)
| PassName (optimization : Pass)
| kLivenessPassName
| kRegisterAllocatorPassName.

(** One entry per call [Compile] makes on the graph, on a pass, on the
    liveness analysis, on the register allocator or on the code
    generator.  [EvBuildMappingTable b]: [b] tells whether the second
    argument was [&src_mapping_table] (true) or [nullptr] (false). *)
Inductive Event : Type :=
| EvDumpGraph (label : DumpLabel)
| EvBuildDominatorTree
| EvTransformToSSA
| EvFindNaturalLoops
| EvRun (p : Pass)
| EvCheck (p : Pass)
| EvAnalyze
| EvAllocateRegisters
| EvCompileOptimized
| EvCompileBaseline
| EvBuildMappingTable (with_src_map : bool)
| EvBuildStackMaps
| EvBuildVMapTable
| EvBuildNativeGCMap.

(** [s.find(marker) != std::string::npos]. *)
Definition contains (s marker : string) : bool :=
  match String.index 0 marker s with
  | Some _ => true
  | None => false
  end.

Definition kOptMarker : string := "00024opt_00024"%string.
Definition kRegMarker : string := "00024reg_00024"%string.

(** How a call of [Compile] ends: it returns a pointer (null or a new
    [CompiledMethod]), or the process is aborted by [CHECK] or
    [LOG(FATAL)]. *)
Inductive Outcome : Type :=
| Returned (m : option CompiledMethod)
| Fatal (message : string).

(** ** The collaborators *)

Section Orchestrator.

Context {DexFile HGraph CodeGenerator SsaLivenessAnalysis : Type}.

(** The arguments of the [DexCompilationUnit] constructor that depend on
    the method. *)
Record DexCompilationUnit : Type := mkUnit {
  unit_dex_file : DexFile;
  unit_code_item : CodeItem;
  unit_class_def_idx : Z;
  unit_method_idx : Z;
  unit_access_flags : Z
}.

(** What [Compile] calls outside this file.  The code generator is created
    from the graph and keeps a pointer to it, so each of its methods is
    given the graph as it is at the time of the call; a method that is
    handed a non-const object returns its new value.  [CompileOptimized]
    and [CompileBaseline] also return the bytes they leave in the
    [CodeVectorAllocator] they are handed, which no other call sees.
    Each call is taken to return: an abort raised inside a collaborator
    (a pass whose [Check] fails, a register allocation that fails) is
    outside this model, whose [Fatal] outcomes are the aborts that
    [Compile] raises itself. *)
Record Collaborators : Type := mkCollaborators {
  kArm32QuickCodeUseSoftFloat : bool;
  IsPathologicalCase : CodeItem -> Z -> DexFile -> bool;
  GetSymbol : DexCompilationUnit -> string;
  BuildGraph : DexCompilationUnit -> CompilerDriver -> CodeItem
               -> option HGraph;
  CodeGenerator_Create : HGraph -> InstructionSet -> option CodeGenerator;
  CanAllocateRegistersFor : HGraph -> InstructionSet -> bool;
  Supports : InstructionSet -> bool;
  BuildDominatorTree : HGraph -> HGraph;
  TransformToSSA : HGraph -> HGraph;
  FindNaturalLoops : HGraph -> HGraph;
  Run : Pass -> HGraph -> HGraph;
  Check : Pass -> HGraph -> HGraph;
  Analyze : HGraph -> CodeGenerator
            -> HGraph * CodeGenerator * SsaLivenessAnalysis;
  AllocateRegisters : SsaLivenessAnalysis -> HGraph -> CodeGenerator
                      -> HGraph * CodeGenerator * unit;
  CompileOptimized : HGraph -> CodeGenerator
                     -> HGraph * CodeGenerator * bytes;
  CompileBaseline : HGraph -> CodeGenerator
                    -> HGraph * CodeGenerator * bytes;
  BuildMappingTable : bool -> HGraph -> CodeGenerator -> bytes * SrcMap;
  BuildStackMaps : HGraph -> CodeGenerator -> bytes;
  BuildVMapTable : HGraph -> CodeGenerator -> bytes;
  BuildNativeGCMap : DexCompilationUnit -> HGraph -> CodeGenerator -> bytes;
  GetFrameSize : HGraph -> CodeGenerator -> Z;
  GetCoreSpillMask : HGraph -> CodeGenerator -> Z
}.

Variable X : Collaborators.

(** ** The objects one compilation works on *)

Record Store : Type := mkStore {
  graph : HGraph;
  codegen : CodeGenerator;
  journal : list Event
}.

Definition M (A : Type) : Type := Store -> A * Store.

Definition ret {A : Type} (a : A) : M A := fun s => (a, s).

Definition bind {A B : Type} (m : M A) (k : A -> M B) : M B :=
  fun s => let (a, s') := m s in k a s'.

Notation "x <- m ;; k" := (bind m (fun x => k))
  (at level 61, m at next level, right associativity).
Notation "m ;; k" := (bind m (fun _ => k))
  (at level 61, right associativity).

Definition record (e : Event) : M unit :=
  fun s => (tt, mkStore (graph s) (codegen s) (journal s ++ [e])).

(** A call that may change the graph only. *)
Definition on_graph (e : Event) (f : HGraph -> HGraph) : M unit :=
  fun s => (tt, mkStore (f (graph s)) (codegen s) (journal s ++ [e])).

(** A call that may change the graph and the code generator. *)
Definition on_objects {A : Type} (e : Event)
  (f : HGraph -> CodeGenerator -> HGraph * CodeGenerator * A) : M A :=
  fun s =>
    let '(g, cg, a) := f (graph s) (codegen s) in
    (a, mkStore g cg (journal s ++ [e])).

(** A call that reads the code generator. *)
Definition query {A : Type} (e : option Event)
  (f : HGraph -> CodeGenerator -> A) : M A :=
  fun s =>
    (f (graph s) (codegen s),
     mkStore (graph s) (codegen s)
             (journal s ++ match e with Some e => [e] | None => [] end)).

Fixpoint for_each {A : Type} (l : list A) (body : A -> M unit) : M unit :=
  match l with
  | [] => ret tt
  | a :: l' => body a ;; for_each l' body
  end.

Definition DumpGraph (label : DumpLabel) : M unit :=
  record (EvDumpGraph label).

(** ** The functions of the file *)

Definition IsInstructionSetSupported (instruction_set : InstructionSet)
  : bool :=
  InstructionSet_eqb instruction_set kArm64
  || (InstructionSet_eqb instruction_set kThumb2
      && negb (kArm32QuickCodeUseSoftFloat X))
  || InstructionSet_eqb instruction_set kX86
  || InstructionSet_eqb instruction_set kX86_64.

Definition CanOptimize (code_item : CodeItem) : bool :=
  tries_size_ code_item =? 0.

(** The array [optimizations] of [RunOptimizations]: opt1 to opt7. *)
Definition optimizations : list Pass :=
  [ HDeadCodeElimination; HConstantFolding; SsaRedundantPhiElimination;
    SsaDeadPhiElimination; InstructionSimplifier; GlobalValueNumberer;
    InstructionSimplifier ].

Definition RunOptimizations : M unit :=
  for_each optimizations (fun optimization =>
    on_graph (EvRun optimization) (Run X optimization) ;;
    on_graph (EvCheck optimization) (Check X optimization) ;;
    DumpGraph (PassName optimization)).

(** The instruction set [Compile] works with: thumb2 is always used for
    arm. *)
Definition chosen_instruction_set (driver : CompilerDriver)
  : InstructionSet :=
  if InstructionSet_eqb (GetInstructionSet driver) kArm then kThumb2
  else GetInstructionSet driver.

(** The first branch of [Compile], after the counter is incremented, up
    to the [CompiledMethod] it returns. *)
Definition CompileOptimizedPath (driver : CompilerDriver)
  (instruction_set : InstructionSet) : M CompiledMethod :=
  on_graph EvBuildDominatorTree (BuildDominatorTree X) ;;
  on_graph EvTransformToSSA (TransformToSSA X) ;;
  DumpGraph (Label "ssa") ;;
  on_graph EvFindNaturalLoops (FindNaturalLoops X) ;;
  RunOptimizations ;;
  on_graph (EvRun PrepareForRegisterAllocation)
           (Run X PrepareForRegisterAllocation) ;;
  liveness <- on_objects EvAnalyze (Analyze X) ;;
  DumpGraph kLivenessPassName ;;
  on_objects EvAllocateRegisters (AllocateRegisters X liveness) ;;
  DumpGraph kRegisterAllocatorPassName ;;
  memory <- on_objects EvCompileOptimized (CompileOptimized X) ;;
  tables <- query (Some (EvBuildMappingTable (GetIncludeDebugSymbols driver)))
                  (BuildMappingTable X (GetIncludeDebugSymbols driver)) ;;
  stack_map <- query (Some EvBuildStackMaps) (BuildStackMaps X) ;;
  frame_size <- query None (GetFrameSize X) ;;
  core_spill_mask <- query None (GetCoreSpillMask X) ;;
  ret (CompiledMethodOptimized instruction_set memory frame_size
         core_spill_mask 0 (fst tables) stack_map).

(** The phases the last branch runs [to get some test coverage]. *)
Definition CoveragePhases : M unit :=
  on_graph EvBuildDominatorTree (BuildDominatorTree X) ;;
  on_graph EvTransformToSSA (TransformToSSA X) ;;
  DumpGraph (Label "ssa") ;;
  on_graph EvFindNaturalLoops (FindNaturalLoops X) ;;
  on_graph (EvRun SsaRedundantPhiElimination)
           (Run X SsaRedundantPhiElimination) ;;
  on_graph (EvRun SsaDeadPhiElimination) (Run X SsaDeadPhiElimination) ;;
  on_graph (EvRun GlobalValueNumberer) (Run X GlobalValueNumberer) ;;
  on_objects EvAnalyze (Analyze X) ;;
  DumpGraph kLivenessPassName.

(** What the last branch does once the code is emitted and the coverage
    phases, if any, are over: the three tables and the [CompiledMethod]. *)
Definition AssembleBaseline (driver : CompilerDriver)
  (instruction_set : InstructionSet)
  (dex_compilation_unit : DexCompilationUnit) (memory : bytes)
  : M CompiledMethod :=
  tables <- query (Some (EvBuildMappingTable (GetIncludeDebugSymbols driver)))
                  (BuildMappingTable X (GetIncludeDebugSymbols driver)) ;;
  vmap_table <- query (Some EvBuildVMapTable) (BuildVMapTable X) ;;
  gc_map <- query (Some EvBuildNativeGCMap)
                  (BuildNativeGCMap X dex_compilation_unit) ;;
  frame_size <- query None (GetFrameSize X) ;;
  core_spill_mask <- query None (GetCoreSpillMask X) ;;
  ret (CompiledMethodBaseline instruction_set memory frame_size
         core_spill_mask 0
         (if GetIncludeDebugSymbols driver then snd tables else [])
         (fst tables) vmap_table gc_map None).

(** The last branch of [Compile], after the counter is incremented. *)
Definition CompileBaselinePath (driver : CompilerDriver)
  (instruction_set : InstructionSet) (code_item : CodeItem)
  (dex_compilation_unit : DexCompilationUnit) : M CompiledMethod :=
  memory <- on_objects EvCompileBaseline (CompileBaseline X) ;;
  (if CanOptimize code_item then CoveragePhases else ret tt) ;;
  AssembleBaseline driver instruction_set dex_compilation_unit memory.

(** The baseline compilation the specification compares with: the last
    branch with the coverage phases left out, whatever the method. *)
Definition CompileBaselineWithoutCoverage (driver : CompilerDriver)
  (instruction_set : InstructionSet)
  (dex_compilation_unit : DexCompilationUnit) : M CompiledMethod :=
  memory <- on_objects EvCompileBaseline (CompileBaseline X) ;;
  AssembleBaseline driver instruction_set dex_compilation_unit memory.

(** A call of [Compile] gives the compiler with its counters as the call
    leaves them, the way the call ends and the journal of the calls made
    on the collaborators. *)
Record Result : Type := mkResult {
  compiler_after : OptimizingCompiler;
  outcome : Outcome;
  calls : list Event
}.

(** [OptimizingCompiler::Compile].  [invoke_type] is unused and
    [class_loader] is only handed on to the compilation unit; they are
    left out. *)
Definition Compile (this : OptimizingCompiler) (code_item : CodeItem)
  (access_flags class_def_idx method_idx : Z) (dex_file : DexFile)
  : Result :=
  let this := incr_total this in
  let driver := GetCompilerDriver this in
  let instruction_set := chosen_instruction_set driver in
  if negb (IsInstructionSetSupported instruction_set) then
    mkResult this (Returned None) []
  else if IsPathologicalCase X code_item method_idx dex_file then
    mkResult this (Returned None) []
  else
    let dex_compilation_unit :=
      mkUnit dex_file code_item class_def_idx method_idx access_flags in
    let shouldCompile :=
      contains (GetSymbol X dex_compilation_unit) kOptMarker in
    let shouldOptimize :=
      contains (GetSymbol X dex_compilation_unit) kRegMarker in
    match BuildGraph X dex_compilation_unit driver code_item with
    | None =>
      if shouldCompile then
        mkResult this
          (Fatal "Could not build graph in optimizing compiler") []
      else mkResult this (Returned None) []
    | Some graph =>
      match CodeGenerator_Create X graph instruction_set with
      | None =>
        if shouldCompile then
          mkResult this
            (Fatal "Could not find code generator for optimizing compiler")
            []
        else mkResult this (Returned None) []
      | Some codegen =>
        let started := snd (DumpGraph (Label "builder")
                              (mkStore graph codegen [])) in
        if run_optimizations_ this
           && CanOptimize code_item
           && CanAllocateRegistersFor X graph instruction_set
        then
          let this := incr_optimized this in
          let (method, s) := CompileOptimizedPath driver instruction_set
                               started in
          mkResult this (Returned (Some method)) (journal s)
        else if shouldOptimize && Supports X instruction_set then
          mkResult this
            (Fatal "Could not allocate registers in optimizing compiler")
            (journal started)
        else
          let this := incr_unoptimized this in
          let (method, s) := CompileBaselinePath driver instruction_set
                               code_item dex_compilation_unit started in
          mkResult this (Returned (Some method)) (journal s)
      end
    end.

(** The arguments of one call. *)
Record CompileArgs : Type := mkArgs {
  arg_code_item : CodeItem;
  arg_access_flags : Z;
  arg_class_def_idx : Z;
  arg_method_idx : Z;
  arg_dex_file : DexFile
}.

Definition CompileMethod (this : OptimizingCompiler) (a : CompileArgs)
  : Result :=
  Compile this (arg_code_item a) (arg_access_flags a) (arg_class_def_idx a)
          (arg_method_idx a) (arg_dex_file a).

(** A run: the methods are compiled one after the other by the same
    compiler; an abort ends the run. *)
Fixpoint CompileAll (this : OptimizingCompiler) (methods : list CompileArgs)
  : OptimizingCompiler * list Outcome :=
  match methods with
  | [] => (this, [])
  | a :: rest =>
    let r := CompileMethod this a in
    match outcome r with
    | Fatal _ => (compiler_after r, [outcome r])
    | Returned _ =>
      let (this', os) := CompileAll (compiler_after r) rest in
      (this', outcome r :: os)
    end
  end.

End Orchestrator.

Arguments Collaborators : clear implicits.
Arguments DexCompilationUnit : clear implicits.
Arguments CompileArgs : clear implicits.
Arguments Store : clear implicits.

(** ** Reading a result *)

Definition path_taken (r : Result) : option Path :=
  match outcome r with
  | Returned (Some m) => Some (schema m)
  | _ => None
  end.

Definition is_returned (o : Outcome) : bool :=
  match o with Returned _ => true | Fatal _ => false end.

Definition is_artifact (o : Outcome) : bool :=
  match o with Returned (Some _) => true | _ => false end.

Definition is_optimized_artifact (o : Outcome) : bool :=
  match o with
  | Returned (Some (CompiledMethodOptimized _ _ _ _ _ _ _)) => true
  | _ => false
  end.

Definition is_rejection (o : Outcome) : bool :=
  match o with Returned None => true | _ => false end.

Definition count (f : Outcome -> bool) (os : list Outcome) : Z :=
  Z.of_nat (List.length (filter f os)).



(** The calls that build a table of the optimized [CompiledMethod]. *)
Definition is_table_call (e : Event) : bool :=
  match e with
  | EvBuildMappingTable _ | EvBuildStackMaps | EvBuildVMapTable
  | EvBuildNativeGCMap => true
  | _ => false
  end.

Definition kRegisterAllocationFailure : string :=
  "Could not allocate registers in optimizing compiler"%string.

(** The [LOG(FATAL)] of the second branch of [Compile] was reached. *)
Definition valve_fired (r : Result) : bool :=
  match outcome r with
  | Fatal message => String.eqb message kRegisterAllocationFailure
  | Returned _ => false
  end.

(** [BuildMappingTable] was called. *)
Definition mapping_table_built (r : Result) : bool :=
  existsb (fun e => match e with EvBuildMappingTable _ => true | _ => false end)
          (calls r).

(** [BuildStackMaps] was called. *)
Definition stack_maps_built (r : Result) : bool :=
  existsb (fun e => match e with EvBuildStackMaps => true | _ => false end)
          (calls r).

Definition GetMethodInstructionSet (m : CompiledMethod) : InstructionSet :=
  match m with
  | CompiledMethodOptimized i _ _ _ _ _ _ => i
  | CompiledMethodBaseline i _ _ _ _ _ _ _ _ _ => i
  end.



(** ** The allocator of the code

    [class CodeVectorAllocator].  Its constructor leaves [size_] without
    a value; [Allocate] sets it and resizes the vector. *)
Record CodeVectorAllocator : Type := mkAllocator {
  memory_ : bytes;
  size_ : option N
}.

Definition NewCodeVectorAllocator : CodeVectorAllocator :=
  mkAllocator [] None.

(** [std::vector<uint8_t>::resize]: the first [n] elements are kept, the
    missing ones are zero. *)
Definition resize (n : nat) (v : bytes) : bytes :=
  firstn n v ++ repeat "000"%byte (n - List.length v).

Definition Allocate (size : N) (a : CodeVectorAllocator)
  : CodeVectorAllocator :=
  mkAllocator (resize (N.to_nat size) (memory_ a)) (Some size).

Definition GetSize (a : CodeVectorAllocator) : option N := size_ a.

Definition GetMemory (a : CodeVectorAllocator) : bytes := memory_ a.

(** ** The report of the destructor *)

(** The two lines the destructor can log: [Did not compile any method.]
    and [Compiled t methods: p% (u) unoptimized, q% (o) optimized.] *)
Inductive LogMessage : Type :=
| DidNotCompileAnyMethod
| CompiledMethods (total unoptimized_percent unoptimized
                   optimized_percent optimized : Z).

Definition fits_int32 (z : Z) : bool := (- 2 ^ 31 <=? z) && (z <? 2 ^ 31).

(** The conversion of an [int] to a [size_t] of the given width. *)
Definition to_size_t (size_t_bits : Z) (z : Z) : Z := z mod 2 ^ size_t_bits.

(** The destructor of [OptimizingCompiler].  The products are computed on
    [int]: where one does not fit the behaviour is undefined and no
    message is given.  The quotients truncate and are stored in
    [size_t]. *)
Definition DestroyOptimizingCompiler (size_t_bits : Z)
  (this : OptimizingCompiler) : option LogMessage :=
  if total_compiled_methods_ this =? 0 then Some DidNotCompileAnyMethod
  else if fits_int32 (unoptimized_compiled_methods_ this * 100)
          && fits_int32 (optimized_compiled_methods_ this * 100)
  then
    let unoptimized_percent :=
      to_size_t size_t_bits
        (Z.quot (unoptimized_compiled_methods_ this * 100)
                (total_compiled_methods_ this)) in
    let optimized_percent :=
      to_size_t size_t_bits
        (Z.quot (optimized_compiled_methods_ this * 100)
                (total_compiled_methods_ this)) in
    Some (CompiledMethods (total_compiled_methods_ this)
            unoptimized_percent (unoptimized_compiled_methods_ this)
            optimized_percent (optimized_compiled_methods_ this))
  else None.


(** ** A small instance of the interface

    Used to evaluate [Compile] on concrete methods.  A dex file is the
    list of the symbols of its methods.  A graph is the number of code
    units it was built from and the list of the calls that changed it.
    The code generator keeps what it recorded when it emitted code. *)

Module Sample.

Definition DexFile : Type := list string.

Definition HGraph : Type := (Z * list Event)%type.

Record CodeGenerator : Type := mkCodeGenerator {
  isa : InstructionSet;
  frame_size_ : Z;
  core_spill_mask_ : Z;
  pc_infos_ : bytes
}.

Definition touch (e : Event) (g : HGraph) : HGraph := (fst g, snd g ++ [e]).

(** One byte per code unit and per change made to the graph so far. *)
Definition emit (g : HGraph) : bytes :=
  repeat "144"%byte (Z.to_nat (fst g) + List.length (snd g)).

Definition ra_supports (i : InstructionSet) : bool :=
  match i with
  | kX86 | kArm | kX86_64 | kThumb2 => true
  | _ => false
  end.

Definition collaborators
  : Collaborators DexFile HGraph CodeGenerator nat :=
  {| kArm32QuickCodeUseSoftFloat := false;
     IsPathologicalCase := fun code_item _ _ =>
       16383 <=? insns_size_in_code_units_ code_item;
     GetSymbol := fun u =>
       nth (Z.to_nat (unit_method_idx u)) (unit_dex_file u) EmptyString;
     BuildGraph := fun _ _ code_item =>
       if insns_size_in_code_units_ code_item =? 0 then None
       else Some (insns_size_in_code_units_ code_item, []);
     CodeGenerator_Create := fun _ i =>
       match i with
       | kArm | kThumb2 | kArm64 | kX86 | kX86_64 =>
         Some (mkCodeGenerator i 0 0 [])
       | _ => None
       end;
     CanAllocateRegistersFor := fun g i => ra_supports i && (fst g <? 1000);
     Supports := ra_supports;
     BuildDominatorTree := touch EvBuildDominatorTree;
     TransformToSSA := touch EvTransformToSSA;
     FindNaturalLoops := touch EvFindNaturalLoops;
     Run := fun p => touch (EvRun p);
     Check := fun _ g => g;
     Analyze := fun g cg => (touch EvAnalyze g, cg, List.length (snd g));
     AllocateRegisters := fun _ g cg =>
       (touch EvAllocateRegisters g,
        mkCodeGenerator (isa cg) (frame_size_ cg) 224 (pc_infos_ cg), tt);
     CompileOptimized := fun g cg =>
       (g, mkCodeGenerator (isa cg) 32 (core_spill_mask_ cg) (emit g),
        emit g);
     CompileBaseline := fun g cg =>
       (g, mkCodeGenerator (isa cg) (16 + 4 * fst g) 0 (emit g), emit g);
     BuildMappingTable := fun with_src_map _ cg =>
       ("001"%byte :: pc_infos_ cg, if with_src_map then [(0, 0)] else []);
     BuildStackMaps := fun _ cg => "002"%byte :: pc_infos_ cg;
     BuildVMapTable := fun _ _ => ["001"%byte; "000"%byte];
     BuildNativeGCMap := fun _ _ cg => "003"%byte :: pc_infos_ cg;
     GetFrameSize := fun _ cg => frame_size_ cg;
     GetCoreSpillMask := fun _ cg => core_spill_mask_ cg |}.

Definition driver (i : InstructionSet) (f : CompilerFilter) (debug : bool)
  : CompilerDriver :=
  mkDriver i f debug.

(** A dex file with four methods: a plain one, one marked for the
    compiler, one marked for the register allocator, one marked for
    both. *)
Definition dex_file : DexFile :=
  [ "Main.plain"%string;
    "Main._00024opt_00024add"%string;
    "Main._00024reg_00024add"%string;
    "Main._00024opt_00024reg_00024add"%string ].

Definition compile (i : InstructionSet) (f : CompilerFilter) (debug : bool)
  (tries insns method_idx : Z) : Result :=
  Compile collaborators (CreateOptimizingCompiler (driver i f debug))
          (mkCodeItem tries insns) 1 0 method_idx dex_file.

(** The methods [compile] returns on x86, with optimizations, for three
    code units: without try items, and with one. *)
Definition optimized_method : CompiledMethod :=
  CompiledMethodOptimized kX86 (repeat "144"%byte 16) 32 224 0
    ("001"%byte :: repeat "144"%byte 16) ("002"%byte :: repeat "144"%byte 16).

Definition baseline_method (i : InstructionSet) : CompiledMethod :=
  CompiledMethodBaseline i (repeat "144"%byte 3) 28 0 0 []
    ("001"%byte :: repeat "144"%byte 3) ["001"%byte; "000"%byte]
    ("003"%byte :: repeat "144"%byte 3) None.

Definition args (tries insns method_idx : Z) : CompileArgs DexFile :=
  mkArgs (mkCodeItem tries insns) 1 0 method_idx dex_file.

(** A run of four calls on x86: an optimized compilation, a baseline one
    (one try item), a pathological method and an empty one. *)
Definition methods : list (CompileArgs DexFile) :=
  [ args 0 3 0; args 1 3 0; args 0 20000 0; args 0 0 0 ].

Definition run : OptimizingCompiler * list Outcome :=
  CompileAll collaborators (CreateOptimizingCompiler (driver kX86 kSpeed false))
    methods.

(** A run of one call on mips. *)
Definition run_on_mips : OptimizingCompiler * list Outcome :=
  CompileAll collaborators
    (CreateOptimizingCompiler (driver kMips kSpeed false)) [ args 0 3 0 ].

Definition optimized_method_for (i : InstructionSet) : CompiledMethod :=
  CompiledMethodOptimized i (repeat "144"%byte 16) 32 224 0
    ("001"%byte :: repeat "144"%byte 16) ("002"%byte :: repeat "144"%byte 16).

(** The run of the four calls by a compiler created for [kTime]. *)
Definition run_for_time : OptimizingCompiler * list Outcome :=
  CompileAll collaborators (CreateOptimizingCompiler (driver kX86 kTime false))
    methods.




End Sample.

(** ** Properties *)

Section Properties.
Context {DexFile HGraph CodeGenerator SsaLivenessAnalysis : Type}.
Variable X : Collaborators DexFile HGraph CodeGenerator SsaLivenessAnalysis.

Ltac objects :=
  repeat match goal with
  | |- context [Analyze ?X ?g ?cg] =>
    let g' := fresh "g" in let cg' := fresh "cg" in let l := fresh "liveness" in
    destruct (Analyze X g cg) as [[g' cg'] l] eqn:?
  | |- context [AllocateRegisters ?X ?l ?g ?cg] =>
    let g' := fresh "g" in let cg' := fresh "cg" in let u := fresh "u" in
    destruct (AllocateRegisters X l g cg) as [[g' cg'] u] eqn:?
  | |- context [CompileOptimized ?X ?g ?cg] =>
    let g' := fresh "g" in let cg' := fresh "cg" in let m := fresh "memory" in
    destruct (CompileOptimized X g cg) as [[g' cg'] m] eqn:?
  | |- context [CompileBaseline ?X ?g ?cg] =>
    let g' := fresh "g" in let cg' := fresh "cg" in let m := fresh "memory" in
    destruct (CompileBaseline X g cg) as [[g' cg'] m] eqn:?
  end.

Lemma RunOptimizations_eq (s : Store HGraph CodeGenerator) :
  RunOptimizations X s =
  (tt, mkStore
     (fold_left (fun g p => Check X p (Run X p g)) optimizations (graph s))
     (codegen s)
     (journal s ++
      flat_map (fun p => [EvRun p; EvCheck p; EvDumpGraph (PassName p)])
               optimizations)).
Proof.
  unfold RunOptimizations.
  generalize optimizations as l. intros l. revert s.
  induction l as [|p l IH]; intros s.
  - cbn. rewrite app_nil_r. destruct s; reflexivity.
  - cbn [for_each fold_left flat_map]. unfold bind at 1.
    cbn -[for_each]. rewrite IH. cbn. repeat rewrite <- app_assoc. reflexivity.
Qed.

Lemma CompileOptimizedPath_eq driver i (s : Store HGraph CodeGenerator) :
  exists g cg memory,
    CompileOptimizedPath X driver i s =
    (CompiledMethodOptimized i memory (GetFrameSize X g cg)
        (GetCoreSpillMask X g cg) 0
        (fst (BuildMappingTable X (GetIncludeDebugSymbols driver) g cg))
        (BuildStackMaps X g cg),
     mkStore g cg
       (journal s ++
        [EvBuildDominatorTree; EvTransformToSSA; EvDumpGraph (Label "ssa");
         EvFindNaturalLoops] ++
        flat_map (fun p => [EvRun p; EvCheck p; EvDumpGraph (PassName p)])
                 optimizations ++
        [EvRun PrepareForRegisterAllocation; EvAnalyze;
         EvDumpGraph kLivenessPassName; EvAllocateRegisters;
         EvDumpGraph kRegisterAllocatorPassName; EvCompileOptimized;
         EvBuildMappingTable (GetIncludeDebugSymbols driver);
         EvBuildStackMaps])).
Proof.
  unfold CompileOptimizedPath, bind.
  cbn [on_graph DumpGraph record]. rewrite RunOptimizations_eq.
  unfold on_objects, query, on_graph, DumpGraph, record, ret.
  cbn [graph codegen journal]. objects. cbn [graph codegen journal fst snd].
  do 3 eexists. repeat rewrite <- app_assoc. cbn [app]. reflexivity.
Qed.

Lemma CompileBaselinePath_eq driver i code_item u
  (s : Store HGraph CodeGenerator) :
  exists g cg,
    CompileBaselinePath X driver i code_item u s =
    (CompiledMethodBaseline i
        (snd (CompileBaseline X (graph s) (codegen s)))
        (GetFrameSize X g cg) (GetCoreSpillMask X g cg) 0
        (if GetIncludeDebugSymbols driver
         then snd (BuildMappingTable X (GetIncludeDebugSymbols driver) g cg)
         else [])
        (fst (BuildMappingTable X (GetIncludeDebugSymbols driver) g cg))
        (BuildVMapTable X g cg) (BuildNativeGCMap X u g cg) None,
     mkStore g cg
       (journal s ++ [EvCompileBaseline] ++
        (if CanOptimize code_item
         then [EvBuildDominatorTree; EvTransformToSSA;
               EvDumpGraph (Label "ssa"); EvFindNaturalLoops;
               EvRun SsaRedundantPhiElimination; EvRun SsaDeadPhiElimination;
               EvRun GlobalValueNumberer; EvAnalyze;
               EvDumpGraph kLivenessPassName]
         else []) ++
        [EvBuildMappingTable (GetIncludeDebugSymbols driver);
         EvBuildVMapTable; EvBuildNativeGCMap])).
Proof.
  unfold CompileBaselinePath, AssembleBaseline, CoveragePhases, bind.
  unfold on_objects, query, on_graph, DumpGraph, record, ret.
  cbn [graph codegen journal]. objects. cbn [snd].
  destruct (CanOptimize code_item); cbn [graph codegen journal fst snd];
    objects; cbn [graph codegen journal fst snd];
    do 2 eexists; repeat rewrite <- app_assoc; cbn [app]; reflexivity.
Qed.

Lemma Compile_unsupported this code_item af cdi mi df :
  IsInstructionSetSupported X
    (chosen_instruction_set (GetCompilerDriver this)) = false ->
  Compile X this code_item af cdi mi df =
  mkResult (incr_total this) (Returned None) [].
Proof.
  intros H. unfold Compile. cbn [incr_total GetCompilerDriver].
  rewrite H. reflexivity.
Qed.

Lemma Compile_pathological this code_item af cdi mi df :
  IsInstructionSetSupported X
    (chosen_instruction_set (GetCompilerDriver this)) = true ->
  IsPathologicalCase X code_item mi df = true ->
  Compile X this code_item af cdi mi df =
  mkResult (incr_total this) (Returned None) [].
Proof.
  intros H1 H2. unfold Compile. cbn [incr_total GetCompilerDriver].
  rewrite H1, H2. reflexivity.
Qed.

Lemma Compile_no_graph this code_item af cdi mi df :
  IsInstructionSetSupported X
    (chosen_instruction_set (GetCompilerDriver this)) = true ->
  IsPathologicalCase X code_item mi df = false ->
  BuildGraph X (mkUnit df code_item cdi mi af) (GetCompilerDriver this)
             code_item = None ->
  Compile X this code_item af cdi mi df =
  mkResult (incr_total this)
    (if contains (GetSymbol X (mkUnit df code_item cdi mi af)) kOptMarker
     then Fatal "Could not build graph in optimizing compiler"
     else Returned None) [].
Proof.
  intros H1 H2 H3. unfold Compile. cbn [incr_total GetCompilerDriver].
  rewrite H1, H2, H3. cbn [negb].
  destruct (contains _ kOptMarker); reflexivity.
Qed.

Lemma Compile_no_codegen this code_item af cdi mi df g :
  IsInstructionSetSupported X
    (chosen_instruction_set (GetCompilerDriver this)) = true ->
  IsPathologicalCase X code_item mi df = false ->
  BuildGraph X (mkUnit df code_item cdi mi af) (GetCompilerDriver this)
             code_item = Some g ->
  CodeGenerator_Create X g
    (chosen_instruction_set (GetCompilerDriver this)) = None ->
  Compile X this code_item af cdi mi df =
  mkResult (incr_total this)
    (if contains (GetSymbol X (mkUnit df code_item cdi mi af)) kOptMarker
     then Fatal "Could not find code generator for optimizing compiler"
     else Returned None) [].
Proof.
  intros H1 H2 H3 H4. unfold Compile. cbn [incr_total GetCompilerDriver].
  rewrite H1, H2, H3, H4. cbn [negb].
  destruct (contains _ kOptMarker); reflexivity.
Qed.

Lemma Compile_decision this code_item af cdi mi df g cg :
  IsInstructionSetSupported X
    (chosen_instruction_set (GetCompilerDriver this)) = true ->
  IsPathologicalCase X code_item mi df = false ->
  BuildGraph X (mkUnit df code_item cdi mi af) (GetCompilerDriver this)
             code_item = Some g ->
  CodeGenerator_Create X g
    (chosen_instruction_set (GetCompilerDriver this)) = Some cg ->
  Compile X this code_item af cdi mi df =
  let driver := GetCompilerDriver this in
  let i := chosen_instruction_set driver in
  let u := mkUnit df code_item cdi mi af in
  let started := mkStore g cg [EvDumpGraph (Label "builder")] in
  if run_optimizations_ this && CanOptimize code_item
     && CanAllocateRegistersFor X g i
  then mkResult (incr_optimized (incr_total this))
         (Returned (Some (fst (CompileOptimizedPath X driver i started))))
         (journal (snd (CompileOptimizedPath X driver i started)))
  else if contains (GetSymbol X u) kRegMarker && Supports X i
  then mkResult (incr_total this)
         (Fatal "Could not allocate registers in optimizing compiler")
         [EvDumpGraph (Label "builder")]
  else mkResult (incr_unoptimized (incr_total this))
         (Returned (Some (fst (CompileBaselinePath X driver i code_item u
                                 started))))
         (journal (snd (CompileBaselinePath X driver i code_item u
                          started))).
Proof.
  intros H1 H2 H3 H4. unfold Compile.
  cbn [incr_total GetCompilerDriver run_optimizations_].
  rewrite H1, H2, H3, H4. cbn [negb]. cbv zeta.
  unfold DumpGraph, record. cbn [snd graph codegen journal app].
  destruct (run_optimizations_ this && CanOptimize code_item
            && CanAllocateRegistersFor X g _).
  - destruct (CompileOptimizedPath _ _ _ _). reflexivity.
  - destruct (contains _ kRegMarker && Supports X _); [reflexivity|].
    destruct (CompileBaselinePath _ _ _ _ _ _). reflexivity.
Qed.

Ltac compile_cases this code_item af cdi mi df :=
  let Hsup := fresh "Hsup" in
  let Hpath := fresh "Hpath" in
  let Hg := fresh "Hg" in
  let Hcg := fresh "Hcg" in
  let g := fresh "g" in
  let cg := fresh "cg" in
  destruct (IsInstructionSetSupported X
              (chosen_instruction_set (GetCompilerDriver this))) eqn:Hsup;
  [ destruct (IsPathologicalCase X code_item mi df) eqn:Hpath;
    [ rewrite (Compile_pathological this code_item af cdi mi df Hsup Hpath)
    | destruct (BuildGraph X (mkUnit df code_item cdi mi af)
                  (GetCompilerDriver this) code_item) as [g|] eqn:Hg;
      [ destruct (CodeGenerator_Create X g
                    (chosen_instruction_set (GetCompilerDriver this)))
          as [cg|] eqn:Hcg;
        [ rewrite (Compile_decision this code_item af cdi mi df g cg
                     Hsup Hpath Hg Hcg); cbv zeta
        | rewrite (Compile_no_codegen this code_item af cdi mi df g
                     Hsup Hpath Hg Hcg) ]
      | rewrite (Compile_no_graph this code_item af cdi mi df
                   Hsup Hpath Hg) ] ]
  | rewrite (Compile_unsupported this code_item af cdi mi df Hsup) ].

Lemma CompileOptimizedPath_schema driver i (s : Store HGraph CodeGenerator) :
  schema (fst (CompileOptimizedPath X driver i s)) = OptimizedPath.
Proof.
  destruct (CompileOptimizedPath_eq driver i s) as (g & cg & memory & E).
  rewrite E. reflexivity.
Qed.

Lemma CompileBaselinePath_schema driver i code_item u
  (s : Store HGraph CodeGenerator) :
  schema (fst (CompileBaselinePath X driver i code_item u s)) = BaselinePath.
Proof.
  destruct (CompileBaselinePath_eq driver i code_item u s) as (g & cg & E).
  rewrite E. reflexivity.
Qed.

(** The counters after a call, read off the way the call ended. *)
Lemma Compile_after this code_item af cdi mi df :
  compiler_after (Compile X this code_item af cdi mi df) =
  match outcome (Compile X this code_item af cdi mi df) with
  | Returned (Some m) =>
    match schema m with
    | OptimizedPath => incr_optimized (incr_total this)
    | BaselinePath => incr_unoptimized (incr_total this)
    end
  | _ => incr_total this
  end.
Proof.
  compile_cases this code_item af cdi mi df; try reflexivity.
  - destruct (_ && _ && _); cbn [compiler_after outcome].
    + rewrite CompileOptimizedPath_schema. reflexivity.
    + destruct (_ && _); cbn [compiler_after outcome]; [reflexivity|].
      rewrite CompileBaselinePath_schema. reflexivity.
  - destruct (contains _ _); reflexivity.
  - destruct (contains _ _); reflexivity.
Qed.

(** C1.  When the instruction set is supported, the method is not
    pathological, the graph is built and a code generator is found,
    [Compile] takes the optimized path if and only if
    [run_optimizations_] is set, [tries_size_] is 0 and
    [CanAllocateRegistersFor], asked about the graph as built and the
    chosen instruction set, answers true; in every other case, unless the
    [LOG(FATAL)] aborts the process, it takes the baseline path. *)
Theorem Compile_path_decision this code_item af cdi mi df g cg :
  IsInstructionSetSupported X
    (chosen_instruction_set (GetCompilerDriver this)) = true ->
  IsPathologicalCase X code_item mi df = false ->
  BuildGraph X (mkUnit df code_item cdi mi af) (GetCompilerDriver this)
             code_item = Some g ->
  CodeGenerator_Create X g
    (chosen_instruction_set (GetCompilerDriver this)) = Some cg ->
  (path_taken (Compile X this code_item af cdi mi df) = Some OptimizedPath
   <-> run_optimizations_ this = true
       /\ tries_size_ code_item = 0
       /\ CanAllocateRegistersFor X g
            (chosen_instruction_set (GetCompilerDriver this)) = true)
  /\ (path_taken (Compile X this code_item af cdi mi df)
        <> Some OptimizedPath ->
      outcome (Compile X this code_item af cdi mi df)
        <> Fatal kRegisterAllocationFailure ->
      path_taken (Compile X this code_item af cdi mi df)
        = Some BaselinePath).
Proof.
  intros Hsup Hpath Hg Hcg.
  rewrite (Compile_decision this code_item af cdi mi df g cg
             Hsup Hpath Hg Hcg). cbv zeta.
  unfold CanOptimize, path_taken.
  destruct (run_optimizations_ this);
    destruct (Z.eqb_spec (tries_size_ code_item) 0) as [Ht|Ht];
    destruct (CanAllocateRegistersFor X g _); cbn [andb outcome];
    rewrite ?CompileOptimizedPath_schema;
    try (split; [split; [tauto | intros _; reflexivity] | congruence]);
    (destruct (_ && _); cbn [outcome];
     rewrite ?CompileBaselinePath_schema;
     (split;
      [ split; [discriminate | intros (A & B & C); congruence]
      | intros _ H; try reflexivity; exfalso; apply H; reflexivity ])).
Qed.

(** C4.  A method with at least one try item for which [Compile]
    returns a [CompiledMethod] gets one built by the baseline
    constructor (mapping table, vmap table, GC map), whether
    [run_optimizations_] is set or not. *)
Theorem tries_give_baseline this code_item af cdi mi df m :
  0 < tries_size_ code_item ->
  outcome (Compile X this code_item af cdi mi df) = Returned (Some m) ->
  exists memory frame_size core_spill_mask src_mapping_table
         mapping_table vmap_table gc_map,
    m = CompiledMethodBaseline
          (chosen_instruction_set (GetCompilerDriver this))
          memory frame_size core_spill_mask 0 src_mapping_table
          mapping_table vmap_table gc_map None.
Proof.
  intros Ht. compile_cases this code_item af cdi mi df;
    cbn [outcome]; try discriminate.
  - unfold CanOptimize.
    destruct (Z.eqb_spec (tries_size_ code_item) 0) as [E|_]; [lia|].
    rewrite andb_false_r. cbn [andb].
    destruct (_ && _); cbn [outcome]; [discriminate|].
    destruct (CompileBaselinePath_eq (GetCompilerDriver this)
                (chosen_instruction_set (GetCompilerDriver this)) code_item
                (mkUnit df code_item cdi mi af)
                (mkStore g cg [EvDumpGraph (Label "builder")]))
      as (g' & cg' & E).
    rewrite E. cbn [fst]. intros H. injection H as <-.
    repeat eexists.
  - destruct (contains _ _); discriminate.
  - destruct (contains _ _); discriminate.
Qed.

(** C10.  Every [CompiledMethod] that [Compile] returns, on either
    path, has a floating-point spill mask of 0. *)
Theorem fp_spill_mask_is_zero this code_item af cdi mi df m :
  outcome (Compile X this code_item af cdi mi df) = Returned (Some m) ->
  GetFpSpillMask m = 0.
Proof.
  compile_cases this code_item af cdi mi df; cbn [outcome]; try discriminate.
  - destruct (_ && _ && _); cbn [outcome].
    + destruct (CompileOptimizedPath_eq (GetCompilerDriver this)
                  (chosen_instruction_set (GetCompilerDriver this))
                  (mkStore g cg [EvDumpGraph (Label "builder")]))
        as (g' & cg' & memory & E).
      rewrite E. intros H. injection H as <-. reflexivity.
    + destruct (_ && _); cbn [outcome]; [discriminate|].
      destruct (CompileBaselinePath_eq (GetCompilerDriver this)
                  (chosen_instruction_set (GetCompilerDriver this))
                  code_item (mkUnit df code_item cdi mi af)
                  (mkStore g cg [EvDumpGraph (Label "builder")]))
        as (g' & cg' & E).
      rewrite E. intros H. injection H as <-. reflexivity.
  - destruct (contains _ _); discriminate.
  - destruct (contains _ _); discriminate.
Qed.

(** C9 (as amended).  On the optimized path [BuildMappingTable] and
    [BuildStackMaps] are each called once, in this order, whatever the
    compiler options say; debug-symbol inclusion only decides whether
    [BuildMappingTable] is handed a source map to fill.  The method
    returned carries the mapping table and the stack map so built. *)
Theorem optimized_tables this code_item af cdi mi df m :
  outcome (Compile X this code_item af cdi mi df) = Returned (Some m) ->
  schema m = OptimizedPath ->
  filter is_table_call (calls (Compile X this code_item af cdi mi df))
  = [ EvBuildMappingTable (GetIncludeDebugSymbols (GetCompilerDriver this));
      EvBuildStackMaps ]
  /\ mapping_table_built (Compile X this code_item af cdi mi df) = true
  /\ stack_maps_built (Compile X this code_item af cdi mi df) = true
  /\ exists g cg memory,
       m = CompiledMethodOptimized
             (chosen_instruction_set (GetCompilerDriver this)) memory
             (GetFrameSize X g cg) (GetCoreSpillMask X g cg) 0
             (fst (BuildMappingTable X
                     (GetIncludeDebugSymbols (GetCompilerDriver this)) g cg))
             (BuildStackMaps X g cg).
Proof.
  intros Hout Hschema. revert Hout.
  unfold mapping_table_built, stack_maps_built.
  compile_cases this code_item af cdi mi df; cbn [outcome calls];
    try discriminate.
  - destruct (_ && _ && _); cbn [outcome calls].
    + destruct (CompileOptimizedPath_eq (GetCompilerDriver this)
                  (chosen_instruction_set (GetCompilerDriver this))
                  (mkStore g cg [EvDumpGraph (Label "builder")]))
        as (g' & cg' & memory & E).
      rewrite E. cbn [fst snd journal]. intros H. injection H as <-.
      repeat split; try reflexivity. exists g', cg', memory. reflexivity.
    + destruct (_ && _); cbn [outcome]; [discriminate|].
      intros H. injection H as <-.
      rewrite CompileBaselinePath_schema in Hschema. discriminate.
  - destruct (contains _ _); discriminate.
  - destruct (contains _ _); discriminate.
Qed.

(** C6 (as amended).  An unsupported instruction set and a pathological
    method are always reported by the null result.  A graph that cannot
    be built and a missing code generator are reported by the null result
    for a method whose symbol lacks the marker [00024opt_00024]; for a
    method that carries it, the [CHECK] aborts the process. *)
Theorem ineligible_outcomes this code_item af cdi mi df r :
  r = Compile X this code_item af cdi mi df ->
  (IsInstructionSetSupported X
     (chosen_instruction_set (GetCompilerDriver this)) = false ->
   outcome r = Returned None)
  /\ (IsInstructionSetSupported X
        (chosen_instruction_set (GetCompilerDriver this)) = true ->
      IsPathologicalCase X code_item mi df = true ->
      outcome r = Returned None)
  /\ (IsInstructionSetSupported X
        (chosen_instruction_set (GetCompilerDriver this)) = true ->
      IsPathologicalCase X code_item mi df = false ->
      BuildGraph X (mkUnit df code_item cdi mi af) (GetCompilerDriver this)
                 code_item = None ->
      outcome r =
      if contains (GetSymbol X (mkUnit df code_item cdi mi af)) kOptMarker
      then Fatal "Could not build graph in optimizing compiler"
      else Returned None)
  /\ (forall g,
      IsInstructionSetSupported X
        (chosen_instruction_set (GetCompilerDriver this)) = true ->
      IsPathologicalCase X code_item mi df = false ->
      BuildGraph X (mkUnit df code_item cdi mi af) (GetCompilerDriver this)
                 code_item = Some g ->
      CodeGenerator_Create X g
        (chosen_instruction_set (GetCompilerDriver this)) = None ->
      outcome r =
      if contains (GetSymbol X (mkUnit df code_item cdi mi af)) kOptMarker
      then Fatal "Could not find code generator for optimizing compiler"
      else Returned None).
Proof.
  intros ->. repeat split.
  - intros H. rewrite (Compile_unsupported _ _ _ _ _ _ H). reflexivity.
  - intros H1 H2. rewrite (Compile_pathological _ _ _ _ _ _ H1 H2).
    reflexivity.
  - intros H1 H2 H3. rewrite (Compile_no_graph _ _ _ _ _ _ H1 H2 H3).
    reflexivity.
  - intros g H1 H2 H3 H4.
    rewrite (Compile_no_codegen _ _ _ _ _ _ _ H1 H2 H3 H4). reflexivity.
Qed.

(** C5 (as amended).  The [LOG(FATAL)] of [Compile] is reached exactly
    when the path decision is reached (supported instruction set, method
    not pathological, graph built, code generator found), the symbol of
    the method carries the marker [00024reg_00024], the register
    allocator supports the instruction set, and the condition of the
    optimized path fails: optimizations are off, or the method has try
    items, or [CanAllocateRegistersFor] answers false. *)
Theorem valve_fires_exactly this code_item af cdi mi df :
  valve_fired (Compile X this code_item af cdi mi df) = true <->
  IsInstructionSetSupported X
    (chosen_instruction_set (GetCompilerDriver this)) = true
  /\ IsPathologicalCase X code_item mi df = false
  /\ exists g,
       BuildGraph X (mkUnit df code_item cdi mi af) (GetCompilerDriver this)
                  code_item = Some g
       /\ (exists cg,
             CodeGenerator_Create X g
               (chosen_instruction_set (GetCompilerDriver this)) = Some cg)
       /\ contains (GetSymbol X (mkUnit df code_item cdi mi af)) kRegMarker
          = true
       /\ Supports X (chosen_instruction_set (GetCompilerDriver this)) = true
       /\ (run_optimizations_ this && CanOptimize code_item
           && CanAllocateRegistersFor X g
                (chosen_instruction_set (GetCompilerDriver this))) = false.
Proof.
  unfold valve_fired.
  compile_cases this code_item af cdi mi df; cbn [outcome].
  - split; [discriminate | intros (_ & H & _); discriminate].
  - destruct (_ && _ && _) eqn:Hcond; cbn [outcome].
    + split; [discriminate|].
      intros (_ & _ & g' & Hg' & _ & _ & _ & H).
      assert (g' = g) by congruence. subst g'. congruence.
    + destruct (contains _ kRegMarker) eqn:Htag;
        destruct (Supports X _) eqn:Hra; cbn [andb outcome];
        (split;
         [ intros H; try discriminate H;
           repeat split; try reflexivity;
           exists g; repeat split; try assumption; eauto
         | intros (_ & _ & g' & _ & _ & H1 & H2 & _);
           try reflexivity; congruence ]).
  - destruct (contains _ kOptMarker); cbn;
      (split; [discriminate|]);
      intros (_ & _ & g' & Hg' & (cg' & Hcg') & _);
      assert (g' = g) by congruence; subst g'; congruence.
  - destruct (contains _ kOptMarker); cbn;
      (split; [discriminate|]);
      intros (_ & _ & g' & Hg' & _); congruence.
  - split; [discriminate | intros (H & _); discriminate].
Qed.

Lemma atomic_incr_small x :
  - 2 ^ 31 <= x + 1 < 2 ^ 31 -> atomic_incr x = x + 1.
Proof.
  intros H. unfold atomic_incr, wrap32.
  rewrite Z.mod_small; lia.
Qed.

Lemma count_cons f o os :
  count f (o :: os) = (if f o then 1 else 0) + count f os.
Proof.
  unfold count. cbn [filter]. destruct (f o); cbn [List.length]; lia.
Qed.

Lemma count_nonneg f os : 0 <= count f os.
Proof. unfold count. lia. Qed.

(** C2 (as amended).  A call for an unsupported instruction set returns
    null.  Every call increments the total counter once (it is the first
    statement of [Compile]).  A call that returns null leaves the
    unoptimized and the optimized counters as they were; a call that
    returns a method increments one of the two once, the one of the
    branch taken, and leaves the other as it was. *)
Theorem Compile_counters this code_item af cdi mi df r :
  r = Compile X this code_item af cdi mi df ->
  (IsInstructionSetSupported X
     (chosen_instruction_set (GetCompilerDriver this)) = false ->
   outcome r = Returned None)
  /\ total_compiled_methods_ (compiler_after r)
     = atomic_incr (total_compiled_methods_ this)
  /\ (outcome r = Returned None ->
      unoptimized_compiled_methods_ (compiler_after r)
      = unoptimized_compiled_methods_ this
      /\ optimized_compiled_methods_ (compiler_after r)
         = optimized_compiled_methods_ this)
  /\ (forall m, outcome r = Returned (Some m) ->
      match schema m with
      | OptimizedPath =>
        optimized_compiled_methods_ (compiler_after r)
        = atomic_incr (optimized_compiled_methods_ this)
        /\ unoptimized_compiled_methods_ (compiler_after r)
           = unoptimized_compiled_methods_ this
      | BaselinePath =>
        unoptimized_compiled_methods_ (compiler_after r)
        = atomic_incr (unoptimized_compiled_methods_ this)
        /\ optimized_compiled_methods_ (compiler_after r)
           = optimized_compiled_methods_ this
      end).
Proof.
  intros ->. split.
  { intros H. rewrite (Compile_unsupported _ _ _ _ _ _ H). reflexivity. }
  rewrite Compile_after.
  destruct (outcome (Compile X this code_item af cdi mi df)) as [[m|]|msg].
  - destruct (schema m) eqn:Hm; (split; [reflexivity|]);
      (split; [discriminate|]);
      intros m' H; injection H as <-; rewrite Hm; split; reflexivity.
  - split; [reflexivity|]. split; [split; reflexivity | discriminate].
  - split; [reflexivity|]. split; discriminate.
Qed.

Lemma CompileAll_counters_from methods :
  forall this this' os,
    CompileAll X this methods = (this', os) ->
    forallb is_returned os = true ->
    0 <= unoptimized_compiled_methods_ this ->
    0 <= optimized_compiled_methods_ this ->
    unoptimized_compiled_methods_ this + optimized_compiled_methods_ this
      <= total_compiled_methods_ this ->
    total_compiled_methods_ this + Z.of_nat (List.length methods) < 2 ^ 31 ->
    total_compiled_methods_ this'
    = total_compiled_methods_ this + Z.of_nat (List.length methods)
    /\ Z.of_nat (List.length methods)
       = count is_artifact os + count is_rejection os
    /\ optimized_compiled_methods_ this'
       = optimized_compiled_methods_ this + count is_optimized_artifact os
    /\ unoptimized_compiled_methods_ this'
       = unoptimized_compiled_methods_ this
         + (count is_artifact os - count is_optimized_artifact os).
Proof.
  induction methods as [|a rest IH]; intros this this' os Hrun Hret Hu Ho Hle Hlt.
  - cbn in Hrun. injection Hrun as <- <-. cbn. repeat split; lia.
  - cbn [CompileAll] in Hrun. unfold CompileMethod in Hrun.
    pose proof (Compile_after this (arg_code_item a) (arg_access_flags a)
                  (arg_class_def_idx a) (arg_method_idx a) (arg_dex_file a))
      as Hafter.
    cbn [List.length] in *. rewrite Nat2Z.inj_succ in *.
    destruct (outcome (Compile X this (arg_code_item a) (arg_access_flags a)
                         (arg_class_def_idx a) (arg_method_idx a)
                         (arg_dex_file a))) as [o|msg] eqn:Hout.
    2:{ injection Hrun as <- <-. cbn in Hret. discriminate. }
    destruct (CompileAll X _ rest) as [c os'] eqn:Hrest.
    injection Hrun as <- <-. cbn [forallb is_returned andb] in Hret.
    rewrite Hafter in Hrest. rewrite !count_cons.
    assert (Ht : atomic_incr (total_compiled_methods_ this)
                 = total_compiled_methods_ this + 1)
      by (apply atomic_incr_small; lia).
    destruct o as [m|].
    + destruct m; cbn [schema] in Hrest;
        (apply IH in Hrest;
         [ | assumption
           | cbn; rewrite ?atomic_incr_small by lia; lia ..]);
        cbn in Hrest; rewrite Ht in Hrest;
        rewrite ?atomic_incr_small in Hrest by lia;
        cbn [is_artifact is_rejection is_optimized_artifact];
        destruct Hrest as (A & B & C & D); repeat split; lia.
    + apply IH in Hrest;
        [ | assumption | cbn; rewrite ?Ht; lia ..].
      cbn in Hrest; rewrite Ht in Hrest.
      cbn [is_artifact is_rejection is_optimized_artifact].
      destruct Hrest as (A & B & C & D); repeat split; lia.
Qed.

(** C3 (as amended).  After any run of calls on a new compiler, none of
    which aborted and fewer than 2^31 in number (the counters are 32 bits
    wide): the total counter is the number of calls, that is N plus the
    number of calls that returned null; the optimized counter is K; the
    unoptimized counter is N - K; and their sum is N. *)
Theorem CompileAll_counters driver methods this os :
  CompileAll X (CreateOptimizingCompiler driver) methods = (this, os) ->
  forallb is_returned os = true ->
  Z.of_nat (List.length methods) < 2 ^ 31 ->
  total_compiled_methods_ this = Z.of_nat (List.length methods)
  /\ total_compiled_methods_ this
     = count is_artifact os + count is_rejection os
  /\ optimized_compiled_methods_ this = count is_optimized_artifact os
  /\ unoptimized_compiled_methods_ this
     = count is_artifact os - count is_optimized_artifact os
  /\ optimized_compiled_methods_ this + unoptimized_compiled_methods_ this
     = count is_artifact os.
Proof.
  intros Hrun Hret Hlt.
  apply CompileAll_counters_from in Hrun; try assumption; cbn; try lia.
  cbn in Hrun. destruct Hrun as (A & B & C & D). repeat split; lia.
Qed.

Lemma Returned_Some_inj m m' : Returned (Some m) = Returned (Some m') -> m = m'.
Proof. intros H. injection H as ->. reflexivity. Qed.

(** The code comes from [CompileBaseline], which runs before the coverage
    phases: it is the same with and without them, whatever the
    collaborators do. *)
Lemma baseline_code_before_coverage driver i code_item u
  (s : Store HGraph CodeGenerator) :
  GetQuickCode (fst (CompileBaselinePath X driver i code_item u s))
  = GetQuickCode (fst (CompileBaselineWithoutCoverage X driver i u s)).
Proof.
  unfold CompileBaselinePath, CompileBaselineWithoutCoverage,
    AssembleBaseline, CoveragePhases, bind.
  unfold on_objects, query, on_graph, DumpGraph, record, ret.
  cbn [graph codegen journal]. objects.
  destruct (CanOptimize code_item); cbn [graph codegen journal fst snd];
    objects; reflexivity.
Qed.



(** ** More on [Compile] *)

(** X1.  The gate, after arm is replaced by thumb2, accepts arm64, x86
    and x86-64 always, arm and thumb2 exactly when quick code for 32-bit
    arm does not use soft float, and nothing else. *)
Theorem gate_accepts (driver : CompilerDriver) :
  IsInstructionSetSupported X (chosen_instruction_set driver) = true <->
  match GetInstructionSet driver with
  | kArm64 | kX86 | kX86_64 => True
  | kArm | kThumb2 => kArm32QuickCodeUseSoftFloat X = false
  | kNone | kMips | kMips64 => False
  end.
Proof.
  unfold IsInstructionSetSupported, chosen_instruction_set.
  destruct (GetInstructionSet driver);
    destruct (kArm32QuickCodeUseSoftFloat X); cbn; intuition congruence.
Qed.

(** X2.  A method that [Compile] returns is labelled with the chosen
    instruction set: the one of the driver with arm replaced by thumb2.
    The label is never arm, and it is one the gate accepts. *)
Theorem returned_instruction_set this code_item af cdi mi df m :
  outcome (Compile X this code_item af cdi mi df) = Returned (Some m) ->
  GetMethodInstructionSet m
  = chosen_instruction_set (GetCompilerDriver this)
  /\ GetMethodInstructionSet m <> kArm
  /\ IsInstructionSetSupported X (GetMethodInstructionSet m) = true.
Proof.
  assert (Harm : chosen_instruction_set (GetCompilerDriver this) <> kArm).
  { unfold chosen_instruction_set.
    destruct (GetInstructionSet (GetCompilerDriver this)); cbn; discriminate. }
  compile_cases this code_item af cdi mi df; cbn [outcome]; try discriminate.
  - destruct (_ && _ && _); cbn [outcome].
    + destruct (CompileOptimizedPath_eq (GetCompilerDriver this)
                  (chosen_instruction_set (GetCompilerDriver this))
                  (mkStore g cg [EvDumpGraph (Label "builder")]))
        as (g' & cg' & memory & E).
      rewrite E. cbn [fst]. intros H. apply Returned_Some_inj in H. subst m.
      cbn [GetMethodInstructionSet]. auto.
    + destruct (_ && _); cbn [outcome]; [discriminate|].
      destruct (CompileBaselinePath_eq (GetCompilerDriver this)
                  (chosen_instruction_set (GetCompilerDriver this))
                  code_item (mkUnit df code_item cdi mi af)
                  (mkStore g cg [EvDumpGraph (Label "builder")]))
        as (g' & cg' & E).
      rewrite E. cbn [fst]. intros H. apply Returned_Some_inj in H. subst m.
      cbn [GetMethodInstructionSet]. auto.
  - destruct (contains _ _); discriminate.
  - destruct (contains _ _); discriminate.
Qed.

Ltac path_eqs this code_item af cdi mi df g cg :=
  let Eo := fresh "Eo" in
  let Eb := fresh "Eb" in
  destruct (CompileOptimizedPath_eq (GetCompilerDriver this)
              (chosen_instruction_set (GetCompilerDriver this))
              (mkStore g cg [EvDumpGraph (Label "builder")]))
    as (? & ? & ? & Eo);
  destruct (CompileBaselinePath_eq (GetCompilerDriver this)
              (chosen_instruction_set (GetCompilerDriver this))
              code_item (mkUnit df code_item cdi mi af)
              (mkStore g cg [EvDumpGraph (Label "builder")]))
    as (? & ? & Eb);
  rewrite ?Eo, ?Eb; clear Eo Eb.


(** X4.  Registers are allocated only on a graph for which
    [CanAllocateRegistersFor] answered true, with optimizations on and
    for a method without try items; and the liveness analysis has then
    been run before. *)
Theorem allocation_only_after_predicate this code_item af cdi mi df :
  In EvAllocateRegisters (calls (Compile X this code_item af cdi mi df)) ->
  run_optimizations_ this = true
  /\ tries_size_ code_item = 0
  /\ (exists g,
        BuildGraph X (mkUnit df code_item cdi mi af) (GetCompilerDriver this)
                   code_item = Some g
        /\ CanAllocateRegistersFor X g
             (chosen_instruction_set (GetCompilerDriver this)) = true)
  /\ exists before after,
       calls (Compile X this code_item af cdi mi df)
       = before ++ EvAllocateRegisters :: after
       /\ In EvAnalyze before
       /\ ~ In EvAllocateRegisters before
       /\ ~ In EvAllocateRegisters after.
Proof.
  compile_cases this code_item af cdi mi df; cbn [outcome calls];
    try (intros []).
  path_eqs this code_item af cdi mi df g cg.
  destruct (run_optimizations_ this) eqn:Hrun; cbn [andb];
    [destruct (CanOptimize code_item) eqn:Hopt; cbn [andb];
     [destruct (CanAllocateRegistersFor X g _) eqn:Hcan|]|].
  - cbn [calls snd journal]. intros _.
    split; [reflexivity|]. split; [apply Z.eqb_eq; exact Hopt|].
    split; [exists g; split; [reflexivity | exact Hcan]|].
    match goal with
    | |- exists before after, ?l = _ /\ _ =>
      exists (firstn 29 l), (skipn 30 l)
    end.
    cbn. intuition discriminate.
  - destruct (_ && _); cbn; intuition discriminate.
  - destruct (_ && _); cbn; intuition discriminate.
  - destruct (_ && _); cbn [calls snd journal];
      try destruct (CanOptimize code_item); cbn; intuition discriminate.
Qed.



(** X7.  A baseline method carries no CFI information, and an empty
    source map unless debug symbols are requested. *)
Theorem baseline_source_map this code_item af cdi mi df
  i code frame_size core_spill_mask fp_spill_mask src_mapping_table
  mapping_table vmap_table gc_map cfi_info :
  outcome (Compile X this code_item af cdi mi df)
  = Returned (Some (CompiledMethodBaseline i code frame_size core_spill_mask
                      fp_spill_mask src_mapping_table mapping_table
                      vmap_table gc_map cfi_info)) ->
  cfi_info = None
  /\ (GetIncludeDebugSymbols (GetCompilerDriver this) = false ->
      src_mapping_table = []).
Proof.
  compile_cases this code_item af cdi mi df; cbn [outcome]; try discriminate.
  - path_eqs this code_item af cdi mi df g cg.
    destruct (_ && _ && _); cbn [outcome fst]; [discriminate|].
    destruct (_ && _); cbn [outcome fst]; [discriminate|].
    intros H. apply Returned_Some_inj in H. injection H as <- <- <- <- <- <- <- <- <- <-.
    split; [reflexivity|]. intros ->. reflexivity.
  - destruct (contains _ _); discriminate.
  - destruct (contains _ _); discriminate.
Qed.

(** X10.  [Compile] returns null exactly in four cases: the instruction
    set is not supported; the method is pathological; the graph cannot
    be built, or no code generator is found, for a method that is not
    marked [00024opt_00024]. *)
Theorem null_exactly_when this code_item af cdi mi df :
  outcome (Compile X this code_item af cdi mi df) = Returned None <->
  IsInstructionSetSupported X
    (chosen_instruction_set (GetCompilerDriver this)) = false
  \/ IsPathologicalCase X code_item mi df = true
  \/ (contains (GetSymbol X (mkUnit df code_item cdi mi af)) kOptMarker
      = false
      /\ (BuildGraph X (mkUnit df code_item cdi mi af)
            (GetCompilerDriver this) code_item = None
          \/ exists g,
               BuildGraph X (mkUnit df code_item cdi mi af)
                 (GetCompilerDriver this) code_item = Some g
               /\ CodeGenerator_Create X g
                    (chosen_instruction_set (GetCompilerDriver this))
                  = None)).
Proof.
  compile_cases this code_item af cdi mi df; cbn [outcome].
  - tauto.
  - split.
    + destruct (_ && _ && _); cbn [outcome]; [discriminate|].
      destruct (_ && _); discriminate.
    + intros [H|[H|(_ & [H|(g' & Hg' & H)])]]; try discriminate.
      assert (g' = g) by congruence. subst g'. congruence.
  - destruct (contains _ kOptMarker); split; try discriminate.
    + intros [H|[H|(H & _)]]; discriminate.
    + intros _. right. right. split; [reflexivity|]. right. eauto.
    + reflexivity.
  - destruct (contains _ kOptMarker); split; try discriminate.
    + intros [H|[H|(H & _)]]; discriminate.
    + intros _. right. right. split; [reflexivity|]. left. reflexivity.
    + reflexivity.
  - tauto.
Qed.

Lemma Compile_keeps_configuration this code_item af cdi mi df :
  run_optimizations_ (compiler_after (Compile X this code_item af cdi mi df))
  = run_optimizations_ this
  /\ GetCompilerDriver (compiler_after (Compile X this code_item af cdi mi df))
     = GetCompilerDriver this.
Proof.
  rewrite Compile_after.
  destruct (outcome (Compile X this code_item af cdi mi df)) as [[m|]|msg];
    try (split; reflexivity).
  destruct (schema m); split; reflexivity.
Qed.

Lemma optimizations_off this code_item af cdi mi df :
  run_optimizations_ this = false ->
  is_optimized_artifact (outcome (Compile X this code_item af cdi mi df))
  = false
  /\ optimized_compiled_methods_
       (compiler_after (Compile X this code_item af cdi mi df))
     = optimized_compiled_methods_ this.
Proof.
  intros Hoff.
  compile_cases this code_item af cdi mi df; cbn [outcome compiler_after];
    try (split; reflexivity).
  - rewrite Hoff. cbn [andb]. path_eqs this code_item af cdi mi df g cg.
    destruct (_ && _); cbn [outcome compiler_after fst]; split; reflexivity.
  - destruct (contains _ _); split; reflexivity.
  - destruct (contains _ _); split; reflexivity.
Qed.

Lemma CompileAll_optimizations_off methods :
  forall this this' os,
    run_optimizations_ this = false ->
    CompileAll X this methods = (this', os) ->
    optimized_compiled_methods_ this' = optimized_compiled_methods_ this
    /\ count is_optimized_artifact os = 0.
Proof.
  induction methods as [|a rest IH]; intros this this' os Hoff Hrun.
  - cbn in Hrun. injection Hrun as <- <-. split; reflexivity.
  - cbn [CompileAll] in Hrun. unfold CompileMethod in Hrun.
    destruct (optimizations_off this (arg_code_item a) (arg_access_flags a)
                (arg_class_def_idx a) (arg_method_idx a) (arg_dex_file a)
                Hoff) as [Hart Hcount].
    destruct (Compile_keeps_configuration this (arg_code_item a)
                (arg_access_flags a) (arg_class_def_idx a) (arg_method_idx a)
                (arg_dex_file a)) as [Hkeep _].
    destruct (outcome (Compile X this (arg_code_item a) (arg_access_flags a)
                         (arg_class_def_idx a) (arg_method_idx a)
                         (arg_dex_file a))) as [o|msg] eqn:Hout.
    + destruct (CompileAll X _ rest) as [c os'] eqn:Hrest.
      injection Hrun as <- <-.
      apply IH in Hrest; [|congruence].
      destruct Hrest as [A B]. rewrite count_cons, Hart, B.
      split; [congruence | reflexivity].
    + injection Hrun as <- <-. split; [exact Hcount | reflexivity].
Qed.

(** X9.  A compiler created for the compiler filter [kTime] never takes
    the optimized path: whatever methods it is given, its optimized
    counter stays 0 and no method it returns is an optimized one. *)
Theorem time_filter_never_optimizes driver methods this os :
  GetCompilerFilter driver = kTime ->
  CompileAll X (CreateOptimizingCompiler driver) methods = (this, os) ->
  optimized_compiled_methods_ this = 0
  /\ count is_optimized_artifact os = 0.
Proof.
  intros Hfilter Hrun.
  apply CompileAll_optimizations_off in Hrun.
  - exact Hrun.
  - cbn. rewrite Hfilter. reflexivity.
Qed.

Lemma to_size_t_percent bits p :
  7 <= bits -> 0 <= p <= 100 -> to_size_t bits p = p.
Proof.
  intros Hbits Hp. unfold to_size_t. apply Z.mod_small.
  assert (2 ^ 7 <= 2 ^ bits) by (apply Z.pow_le_mono_r; lia).
  change (2 ^ 7) with 128 in *. lia.
Qed.

Lemma percent_sum u o t :
  0 <= u -> 0 <= o -> 0 < t -> u + o <= t ->
  0 <= u * 100 / t /\ 0 <= o * 100 / t
  /\ u * 100 / t + o * 100 / t <= 100
  /\ (u + o = t -> 99 <= u * 100 / t + o * 100 / t).
Proof.
  intros Hu Ho Ht Hle.
  pose proof (Z.div_mod (u * 100) t) as Am.
  pose proof (Z.mod_pos_bound (u * 100) t Ht) as Ab.
  pose proof (Z.div_mod (o * 100) t) as Bm.
  pose proof (Z.mod_pos_bound (o * 100) t Ht) as Bb.
  assert (Hu' : 0 <= u * 100 / t) by (apply Z.div_pos; lia).
  assert (Ho' : 0 <= o * 100 / t) by (apply Z.div_pos; lia).
  repeat split; try assumption; [|intros Heq]; nia.
Qed.

(** X11.  What the destructor reports after a run of calls on a new
    compiler, none of which aborted, short enough for the products by
    100 to fit an [int].  It says that no method was compiled only when
    [Compile] was never called: after calls that were all rejected it
    reports the number of calls, with 0% and 0%.  Otherwise the two
    percentages are those of the methods returned by each path over the
    number of calls; their sum is at most 100, and 99 or 100 when no call
    was rejected. *)
Theorem report_after_run size_t_bits driver methods this os :
  CompileAll X (CreateOptimizingCompiler driver) methods = (this, os) ->
  forallb is_returned os = true ->
  Z.of_nat (List.length methods) * 100 < 2 ^ 31 ->
  7 <= size_t_bits ->
  (methods = [] ->
   DestroyOptimizingCompiler size_t_bits this = Some DidNotCompileAnyMethod)
  /\ (methods <> [] ->
      exists unoptimized_percent optimized_percent,
        DestroyOptimizingCompiler size_t_bits this
        = Some (CompiledMethods (Z.of_nat (List.length methods))
                  unoptimized_percent
                  (count is_artifact os - count is_optimized_artifact os)
                  optimized_percent
                  (count is_optimized_artifact os))
        /\ unoptimized_percent
           = (count is_artifact os - count is_optimized_artifact os) * 100
             / Z.of_nat (List.length methods)
        /\ optimized_percent
           = count is_optimized_artifact os * 100
             / Z.of_nat (List.length methods)
        /\ unoptimized_percent + optimized_percent <= 100
        /\ (count is_rejection os = 0 ->
            99 <= unoptimized_percent + optimized_percent)).
Proof.
  intros Hrun Hret Hlt Hbits.
  apply CompileAll_counters_from in Hrun; try assumption; cbn; try lia.
  cbn in Hrun. destruct Hrun as (Ht & Hn & Ho & Hu).
  pose proof (count_nonneg is_rejection os) as Hrej.
  pose proof (count_nonneg is_optimized_artifact os) as Hopt.
  assert (Hsub : 0 <= count is_artifact os - count is_optimized_artifact os).
  { unfold count.
    assert (List.length (filter is_optimized_artifact os)
            <= List.length (filter is_artifact os))%nat; [|lia].
    clear. induction os as [|o os IH]; [cbn; lia|].
    destruct o as [[[]|]|]; cbn; lia. }
  split.
  - intros ->. unfold DestroyOptimizingCompiler. rewrite Ht. reflexivity.
  - intros Hne.
    assert (Hpos : 0 < Z.of_nat (List.length methods))
      by (destruct methods; [congruence | cbn; lia]).
    unfold DestroyOptimizingCompiler. rewrite Ht, Hu, Ho.
    destruct (Z.eqb_spec (Z.of_nat (List.length methods)) 0) as [E|_]; [lia|].
    assert (Hfit : forall z, 0 <= z ->
                     z <= Z.of_nat (List.length methods) ->
                     fits_int32 (z * 100) = true).
    { intros z Hz Hzle. unfold fits_int32.
      apply andb_true_intro; split; [apply Z.leb_le | apply Z.ltb_lt]; lia. }
    rewrite !Hfit by lia. cbn [andb].
    rewrite !Z.quot_div_nonneg by lia.
    destruct (percent_sum
                (count is_artifact os - count is_optimized_artifact os)
                (count is_optimized_artifact os)
                (Z.of_nat (List.length methods)))
      as (Pu & Po & Psum & Pfull); try lia.
    rewrite !to_size_t_percent by lia.
    do 2 eexists. split; [reflexivity|].
    split; [reflexivity|]. split; [reflexivity|].
    split; [exact Psum|]. intros Hnorej. apply Pfull. lia.
Qed.

End Properties.

(** ** The theorems at concrete methods *)

(** C1 at the plain method of the sample dex file on x86: the three
    conditions hold and the optimized path is taken. *)
Lemma Compile_path_decision_witness :
  path_taken (Sample.compile kX86 kSpeed false 0 3 0) = Some OptimizedPath.
Proof.
  apply (Compile_path_decision Sample.collaborators
           (CreateOptimizingCompiler (Sample.driver kX86 kSpeed false))
           (mkCodeItem 0 3) 1 0 0 Sample.dex_file
           (3, []) (Sample.mkCodeGenerator kX86 0 0 []));
    try reflexivity.
  repeat split; reflexivity.
Defined.

(** C4 at the same method with one try item. *)
Lemma tries_give_baseline_witness :
  0 < tries_size_ (mkCodeItem 1 3)
  /\ exists memory frame_size core_spill_mask src_mapping_table
            mapping_table vmap_table gc_map,
       Sample.baseline_method kX86 =
       CompiledMethodBaseline kX86 memory frame_size core_spill_mask 0
         src_mapping_table mapping_table vmap_table gc_map None.
Proof.
  split; [reflexivity|].
  apply (tries_give_baseline Sample.collaborators
           (CreateOptimizingCompiler (Sample.driver kX86 kSpeed false))
           (mkCodeItem 1 3) 1 0 0 Sample.dex_file
           (Sample.baseline_method kX86)); reflexivity.
Defined.

(** C10 at the optimized method of the sample. *)
Lemma fp_spill_mask_is_zero_witness :
  outcome (Sample.compile kX86 kSpeed false 0 3 0)
  = Returned (Some Sample.optimized_method)
  /\ GetFpSpillMask Sample.optimized_method = 0.
Proof.
  split; [reflexivity|].
  apply (fp_spill_mask_is_zero Sample.collaborators
           (CreateOptimizingCompiler (Sample.driver kX86 kSpeed false))
           (mkCodeItem 0 3) 1 0 0 Sample.dex_file Sample.optimized_method).
  reflexivity.
Defined.


(** C9 (as amended) at the optimized compilation of the sample, debug
    symbols not requested. *)
Lemma optimized_tables_witness :
  filter is_table_call (calls (Sample.compile kX86 kSpeed false 0 3 0))
  = [ EvBuildMappingTable false; EvBuildStackMaps ].
Proof.
  apply (optimized_tables Sample.collaborators
           (CreateOptimizingCompiler (Sample.driver kX86 kSpeed false))
           (mkCodeItem 0 3) 1 0 0 Sample.dex_file Sample.optimized_method);
    reflexivity.
Defined.

(** C9 as stated fails: the mapping table is built although debug symbols
    are not requested. *)
Lemma mapping_table_built_without_debug_symbols :
  path_taken (Sample.compile kX86 kSpeed false 0 3 0) = Some OptimizedPath
  /\ ~ (mapping_table_built (Sample.compile kX86 kSpeed false 0 3 0) = true
        <-> GetIncludeDebugSymbols (Sample.driver kX86 kSpeed false) = true).
Proof.
  split; [reflexivity|].
  intros [H _]. specialize (H eq_refl). discriminate H.
Qed.

(** C6 (as amended) at the empty method marked for the compiler. *)
Lemma ineligible_outcomes_witness :
  outcome (Sample.compile kX86 kSpeed false 0 0 1)
  = Fatal "Could not build graph in optimizing compiler".
Proof.
  apply (ineligible_outcomes Sample.collaborators
           (CreateOptimizingCompiler (Sample.driver kX86 kSpeed false))
           (mkCodeItem 0 0) 1 0 1 Sample.dex_file _ eq_refl); reflexivity.
Defined.

(** C6 as stated fails: the graph of the empty method cannot be built,
    the method is marked [00024opt_00024], and the call ends in the
    [CHECK], not in the null result. *)
Lemma graph_build_failure_is_fatal_when_marked :
  BuildGraph Sample.collaborators
    (mkUnit Sample.dex_file (mkCodeItem 0 0) 0 1 1)
    (Sample.driver kX86 kSpeed false) (mkCodeItem 0 0) = None
  /\ outcome (Sample.compile kX86 kSpeed false 0 0 1)
     = Fatal "Could not build graph in optimizing compiler"
  /\ outcome (Sample.compile kX86 kSpeed false 0 0 1) <> Returned None.
Proof.
  split; [reflexivity|]. split; [reflexivity|]. discriminate.
Qed.

(** C5 as stated fails, both ways.  On arm64, which the register
    allocator does not support, a method marked [00024reg_00024] whose
    registers cannot be allocated is compiled by the baseline path.  On
    x86 with optimizations off, a marked method whose registers can be
    allocated aborts the process. *)
Lemma valve_is_not_tag_and_allocability :
  ~ (valve_fired (Sample.compile kArm64 kSpeed false 0 3 2) = true
     <-> contains (nth 2 Sample.dex_file EmptyString) kRegMarker = true
         /\ CanAllocateRegistersFor Sample.collaborators (3, []) kArm64
            = false)
  /\ ~ (valve_fired (Sample.compile kX86 kTime false 0 3 2) = true
        <-> contains (nth 2 Sample.dex_file EmptyString) kRegMarker = true
            /\ CanAllocateRegistersFor Sample.collaborators (3, []) kX86
               = false).
Proof.
  assert (Harm : valve_fired (Sample.compile kArm64 kSpeed false 0 3 2)
                 = false) by (vm_compute; reflexivity).
  assert (Hx86 : valve_fired (Sample.compile kX86 kTime false 0 3 2) = true)
    by (vm_compute; reflexivity).
  assert (Htag : contains (nth 2 Sample.dex_file EmptyString) kRegMarker
                 = true) by (vm_compute; reflexivity).
  split.
  - intros [_ H]. rewrite Harm in H.
    assert (false = true) as E by (apply H; split; [exact Htag|reflexivity]).
    discriminate E.
  - intros [H _]. destruct (H Hx86) as [_ E]. vm_compute in E.
    discriminate E.
Qed.

(** C2 (as amended) at a call on mips. *)
Lemma Compile_counters_witness :
  total_compiled_methods_
    (compiler_after (Sample.compile kMips kSpeed false 0 3 0))
  = atomic_incr 0.
Proof.
  apply (Compile_counters Sample.collaborators
           (CreateOptimizingCompiler (Sample.driver kMips kSpeed false))
           (mkCodeItem 0 3) 1 0 0 Sample.dex_file _ eq_refl).
Defined.

(** C2 as stated fails: mips is not supported, the call returns null, and
    the total counter has changed. *)
Lemma rejected_call_is_counted :
  IsInstructionSetSupported Sample.collaborators
    (chosen_instruction_set (Sample.driver kMips kSpeed false)) = false
  /\ outcome (Sample.compile kMips kSpeed false 0 3 0) = Returned None
  /\ total_compiled_methods_
       (compiler_after (Sample.compile kMips kSpeed false 0 3 0))
     <> total_compiled_methods_
          (CreateOptimizingCompiler (Sample.driver kMips kSpeed false)).
Proof.
  split; [reflexivity|]. split; [reflexivity|]. discriminate.
Qed.

(** C3 (as amended) at the run of four calls of the sample: two methods
    returned, one of them optimized, two calls rejected. *)
Lemma CompileAll_counters_witness :
  total_compiled_methods_ (fst Sample.run)
  = Z.of_nat (List.length Sample.methods)
  /\ total_compiled_methods_ (fst Sample.run)
     = count is_artifact (snd Sample.run)
       + count is_rejection (snd Sample.run)
  /\ optimized_compiled_methods_ (fst Sample.run)
     = count is_optimized_artifact (snd Sample.run)
  /\ unoptimized_compiled_methods_ (fst Sample.run)
     = count is_artifact (snd Sample.run)
       - count is_optimized_artifact (snd Sample.run)
  /\ optimized_compiled_methods_ (fst Sample.run)
     + unoptimized_compiled_methods_ (fst Sample.run)
     = count is_artifact (snd Sample.run).
Proof.
  assert (Hrun : CompileAll Sample.collaborators
                   (CreateOptimizingCompiler (Sample.driver kX86 kSpeed false))
                   Sample.methods
                 = (fst Sample.run, snd Sample.run))
    by (vm_compute; reflexivity).
  assert (Hret : forallb is_returned (snd Sample.run) = true)
    by (vm_compute; reflexivity).
  assert (Hlt : Z.of_nat (List.length Sample.methods) < 2 ^ 31)
    by (vm_compute; reflexivity).
  exact (CompileAll_counters Sample.collaborators
           (Sample.driver kX86 kSpeed false) Sample.methods
           (fst Sample.run) (snd Sample.run) Hrun Hret Hlt).
Defined.

(** C3 as stated fails: after one call on mips, which returns null, no
    compilation has succeeded and the total counter is 1. *)
Lemma total_counts_rejected_calls :
  forallb is_returned (snd Sample.run_on_mips) = true
  /\ count is_artifact (snd Sample.run_on_mips) = 0
  /\ total_compiled_methods_ (fst Sample.run_on_mips) = 1
  /\ total_compiled_methods_ (fst Sample.run_on_mips)
     <> count is_artifact (snd Sample.run_on_mips).
Proof.
  repeat split; try reflexivity. discriminate.
Qed.



(** ** The markers *)

Lemma substring_prefix (t : string) :
  forall s, substring 0 (String.length t) s = t ->
            exists post, s = (t ++ post)%string.
Proof.
  induction t as [|c t IH]; intros s H.
  - exists s. reflexivity.
  - destruct s as [|c' s]; cbn in H; [discriminate|].
    injection H as -> H. destruct (IH s H) as [post ->].
    exists post. reflexivity.
Qed.

Lemma substring_occurs (m : nat) :
  forall s t, t <> EmptyString ->
              substring m (String.length t) s = t ->
              exists pre post, s = (pre ++ t ++ post)%string.
Proof.
  induction m as [|m IH]; intros s t Ht H.
  - destruct (substring_prefix t s H) as [post ->].
    exists EmptyString, post. reflexivity.
  - destruct s as [|c s].
    + destruct t; [congruence | cbn in H; discriminate].
    + cbn in H. destruct (IH s t Ht H) as (pre & post & ->).
      exists (String c pre), post. reflexivity.
Qed.

Lemma substring_append (pre t post : string) :
  substring (String.length pre) (String.length t) (pre ++ t ++ post) = t.
Proof.
  induction pre as [|c pre IH]; [|exact IH].
  cbn. induction t as [|c t IH]; cbn.
  - destruct post; reflexivity.
  - rewrite IH. reflexivity.
Qed.

Lemma contains_occurs (s marker : string) :
  marker <> EmptyString ->
  contains s marker = true <->
  exists pre post, s = (pre ++ marker ++ post)%string.
Proof.
  intros Hne. unfold contains. split.
  - destruct (index 0 marker s) as [m|] eqn:E; [|discriminate].
    intros _. apply index_correct1 in E.
    exact (substring_occurs m s marker Hne E).
  - intros (pre & post & ->).
    destruct (index 0 marker (pre ++ marker ++ post)) as [m|] eqn:E;
      [reflexivity|].
    exfalso.
    apply (index_correct3 0 (String.length pre) _ _ E Hne (Nat.le_0_l _)).
    apply substring_append.
Qed.

(** X13.  The tests on the symbol of the method are substring tests: a
    method is taken as marked for the compiler, or for the register
    allocator, exactly when the marker occurs somewhere in its symbol. *)
Theorem markers_are_substrings (symbol : string) :
  (contains symbol kOptMarker = true <->
   exists pre post, symbol = (pre ++ "00024opt_00024" ++ post)%string)
  /\ (contains symbol kRegMarker = true <->
      exists pre post, symbol = (pre ++ "00024reg_00024" ++ post)%string).
Proof.
  split; apply contains_occurs; discriminate.
Qed.

(** ** The allocator *)

Lemma resize_length n v : List.length (resize n v) = n.
Proof.
  unfold resize. rewrite length_app, length_firstn, repeat_length. lia.
Qed.

Lemma resize_nth n v i :
  (i < n)%nat -> nth i (resize n v) "000"%byte = nth i v "000"%byte.
Proof.
  intros Hi. unfold resize.
  destruct (Nat.lt_ge_cases i (List.length v)) as [Hlt|Hge].
  - rewrite app_nth1 by (rewrite length_firstn; lia).
    rewrite <- (firstn_skipn n v) at 2.
    rewrite app_nth1 by (rewrite length_firstn; lia). reflexivity.
  - rewrite (nth_overflow v) by lia.
    rewrite firstn_all2 by lia.
    rewrite app_nth2 by lia. apply nth_repeat.
Qed.

(** X12.  After [Allocate(size)] the allocator reports [size], its
    vector has exactly [size] bytes, and below [size] every byte is the
    one that was there before, or zero where the vector was shorter:
    [Allocate] grows or truncates, it does not clear. *)
Theorem Allocate_resizes (size : N) (a : CodeVectorAllocator) :
  GetSize (Allocate size a) = Some size
  /\ List.length (GetMemory (Allocate size a)) = N.to_nat size
  /\ forall i, (i < N.to_nat size)%nat ->
       nth i (GetMemory (Allocate size a)) "000"%byte
       = nth i (GetMemory a) "000"%byte.
Proof.
  split; [reflexivity|]. split.
  - apply resize_length.
  - intros i Hi. apply resize_nth. exact Hi.
Qed.

(** ** The further properties at concrete methods *)

(** X2 at the plain method compiled for arm: the method is labelled
    thumb2. *)
Lemma returned_instruction_set_witness :
  GetMethodInstructionSet (Sample.optimized_method_for kThumb2)
  = chosen_instruction_set
      (GetCompilerDriver
         (CreateOptimizingCompiler (Sample.driver kArm kSpeed false)))
  /\ GetMethodInstructionSet (Sample.optimized_method_for kThumb2) <> kArm
  /\ IsInstructionSetSupported Sample.collaborators
       (GetMethodInstructionSet (Sample.optimized_method_for kThumb2)) = true.
Proof.
  assert (H : outcome (Compile Sample.collaborators
                         (CreateOptimizingCompiler
                            (Sample.driver kArm kSpeed false))
                         (mkCodeItem 0 3) 1 0 0 Sample.dex_file)
              = Returned (Some (Sample.optimized_method_for kThumb2)))
    by (vm_compute; reflexivity).
  exact (returned_instruction_set Sample.collaborators
           (CreateOptimizingCompiler (Sample.driver kArm kSpeed false))
           (mkCodeItem 0 3) 1 0 0 Sample.dex_file
           (Sample.optimized_method_for kThumb2) H).
Defined.

(** X4 at the optimized compilation of the sample. *)
Lemma allocation_only_after_predicate_witness :
  run_optimizations_
    (CreateOptimizingCompiler (Sample.driver kX86 kSpeed false)) = true
  /\ tries_size_ (mkCodeItem 0 3) = 0.
Proof.
  assert (H : In EvAllocateRegisters
                (calls (Compile Sample.collaborators
                         (CreateOptimizingCompiler
                            (Sample.driver kX86 kSpeed false))
                         (mkCodeItem 0 3) 1 0 0 Sample.dex_file)))
    by (vm_compute; tauto).
  pose proof (allocation_only_after_predicate Sample.collaborators
                (CreateOptimizingCompiler (Sample.driver kX86 kSpeed false))
                (mkCodeItem 0 3) 1 0 0 Sample.dex_file H) as (A & B & _).
  exact (conj A B).
Defined.



(** X7 at the same method. *)
Lemma baseline_source_map_witness :
  @None bytes = None
  /\ (GetIncludeDebugSymbols
        (GetCompilerDriver
           (CreateOptimizingCompiler (Sample.driver kX86 kSpeed false)))
      = false ->
      @nil (Z * Z) = []).
Proof.
  assert (H : outcome (Sample.compile kX86 kSpeed false 1 3 0)
              = Returned (Some (Sample.baseline_method kX86)))
    by (vm_compute; reflexivity).
  exact (baseline_source_map Sample.collaborators
           (CreateOptimizingCompiler (Sample.driver kX86 kSpeed false))
           (mkCodeItem 1 3) 1 0 0 Sample.dex_file
           kX86 _ _ _ _ _ _ _ _ _ H).
Defined.

(** X9 at the run of four calls, with the filter [kTime]. *)
Lemma time_filter_never_optimizes_witness :
  optimized_compiled_methods_ (fst Sample.run_for_time) = 0
  /\ count is_optimized_artifact (snd Sample.run_for_time) = 0.
Proof.
  assert (Hrun : CompileAll Sample.collaborators
                   (CreateOptimizingCompiler (Sample.driver kX86 kTime false))
                   Sample.methods
                 = (fst Sample.run_for_time, snd Sample.run_for_time))
    by (vm_compute; reflexivity).
  exact (time_filter_never_optimizes Sample.collaborators
           (Sample.driver kX86 kTime false) Sample.methods
           (fst Sample.run_for_time) (snd Sample.run_for_time)
           eq_refl Hrun).
Defined.

(** X11 at the run of four calls of the sample, two of them rejected:
    25% and 25%. *)
Lemma report_after_run_witness :
  DestroyOptimizingCompiler 64 (fst Sample.run)
  = Some (CompiledMethods 4 25 1 25 1).
Proof.
  assert (Hrun : CompileAll Sample.collaborators
                   (CreateOptimizingCompiler (Sample.driver kX86 kSpeed false))
                   Sample.methods
                 = (fst Sample.run, snd Sample.run))
    by (vm_compute; reflexivity).
  assert (Hret : forallb is_returned (snd Sample.run) = true)
    by (vm_compute; reflexivity).
  assert (Hlt : Z.of_nat (List.length Sample.methods) * 100 < 2 ^ 31)
    by (vm_compute; reflexivity).
  assert (Hbits : 7 <= 64) by lia.
  assert (Hne : Sample.methods <> []) by discriminate.
  destruct (report_after_run Sample.collaborators 64
              (Sample.driver kX86 kSpeed false) Sample.methods
              (fst Sample.run) (snd Sample.run) Hrun Hret Hlt Hbits)
    as [_ H].
  destruct (H Hne) as (p & q & E & -> & -> & _).
  rewrite E. vm_compute. reflexivity.
Defined.
